(** * run.py: the VUnit configuration script of dcpu16-core

    The repository's only program is a straight-line Python script that
    talks to the VUnit test runner.  The script is embedded as a term of a
    small free monad over the five VUnit entry points it calls; the
    framework and the Python runtime around it are an explicit, separate
    environment:

    - [Generic]: an arbitrary handler for the calls, for the statements that
      hold whatever the framework does (order of the calls, propagation of
      exceptions and of the exit status);
    - [Reference]: an executable model of the framework behaviours the
      script relies on (object store, library table, globbing of the working
      directory, the error on a duplicate library name and on a pattern
      without a match), parametric in the argument parser and in the test
      run itself. *)

From Stdlib Require Import String Ascii ZArith.
From stdpp Require Import base tactics option list numbers.

Local Open Scope string_scope.
Local Open Scope Z_scope.

(** ** Objects the script holds *)

(** A reference to a [VUnit] object (the value bound to [vu]). *)
Record VUnit := { vu_id : nat }.

(** A [Library] object as returned by [add_library] (the values bound to
    [lib] and [test_lib]): it knows the runner it belongs to and its name. *)
Record Library := { parent : VUnit; library_name : string }.

(** What a Python call can end with other than a value: an exception (an
    instance of [Exception]), or [sys.exit(status)]. *)
Inductive PyException :=
| ValueError (msg : string)
| OtherError (kind msg : string).

Inductive Reply (X : Type) :=
| Returned (x : X)
| Raised (e : PyException)
| Exited (status : Z).
Arguments Returned {X} x.
Arguments Raised {X} e.
Arguments Exited {X} status.

(** ** The framework calls run.py makes

    One constructor per entry point, with the arguments the script can pass.
    Keyword arguments the script leaves out are present with their position
    fixed; [add_source_files] carries [allow_empty] (default [False]) and
    [vhdl_standard] (default [None]). *)
Inductive Call :=
| from_argv
| add_vhdl_builtins (self : VUnit)
| add_library (self : VUnit) (library_name : string)
| add_source_files (self : Library) (pattern : string)
                   (allow_empty : bool) (vhdl_standard : option string)
| main (self : VUnit).

(** The type of the value a call returns.  [main] runs the tests and then
    leaves through [sys.exit]: it has no return value. *)
Definition ret (c : Call) : Type :=
  match c with
  | from_argv => VUnit
  | add_vhdl_builtins _ => unit
  | add_library _ _ => Library
  | add_source_files _ _ _ _ => unit
  | main _ => Empty_set
  end.

(** ** Scripts: sequences of framework calls *)

Inductive Script (A : Type) :=
| Ret (a : A)
| Do (c : Call) (k : ret c -> Script A).
Arguments Ret {A} a.
Arguments Do {A} c k.

Fixpoint bind {A B} (p : Script A) (f : A -> Script B) : Script B :=
  match p with
  | Ret a => f a
  | Do c k => Do c (fun x => bind (k x) f)
  end.

Definition call (c : Call) : Script (ret c) := Do c Ret.

Declare Scope script_scope.
Delimit Scope script_scope with script.
Notation "x <- p ;; q" := (bind p (fun x => q))
  (at level 100, p at next level, right associativity) : script_scope.
Notation "p ;; q" := (bind p (fun _ => q))
  (at level 100, right associativity) : script_scope.

(** [vhdl_standard="2008"] with every other keyword at its default. *)
Definition add_source_files_std (self : Library) (pattern vhdl_standard : string) : Call :=
  add_source_files self pattern false (Some vhdl_standard).

(** Lines 5 to 21 of run.py: everything before [vu.main()]. *)
Definition setup : Script VUnit :=
  (vu <- call from_argv ;;
   call (add_vhdl_builtins vu) ;;
   lib <- call (add_library vu "dcpu16_lib") ;;
   call (add_source_files_std lib "src/*.vhd" "2008") ;;
   test_lib <- call (add_library vu "dcpu16_test_lib") ;;
   call (add_source_files_std test_lib "src/test/*.vhd" "2008") ;;
   Ret vu)%script.

(** The whole script, lines 5 to 24. *)
Definition run_py : Script unit :=
  (vu <- call from_argv ;;
   call (add_vhdl_builtins vu) ;;
   lib <- call (add_library vu "dcpu16_lib") ;;
   call (add_source_files_std lib "src/*.vhd" "2008") ;;
   test_lib <- call (add_library vu "dcpu16_test_lib") ;;
   call (add_source_files_std test_lib "src/test/*.vhd" "2008") ;;
   never <- call (main vu) ;;
   match never : Empty_set with end)%script.

(** ** Modules: call sequences and the handlers around them

    A Python module may put statements inside [try]/[except]; a module is a
    plain sequence of calls or a guarded module with its handler. *)
Inductive Program (A : Type) :=
| Plain (body : Script A)
| TryExcept (body : Program A) (handler : PyException -> Program A).
Arguments Plain {A} body.
Arguments TryExcept {A} body handler.

Definition handler_free {A} (m : Program A) : bool :=
  match m with
  | Plain _ => true
  | TryExcept _ _ => false
  end.


(** ** Running a script against a handler *)

(** How a call ended, without its value. *)
Inductive Completion :=
| returned
| raised (e : PyException)
| exited (status : Z).

Definition completion {X} (r : Reply X) : Completion :=
  match r with
  | Returned _ => returned
  | Raised e => raised e
  | Exited z => exited z
  end.

(** The exit status of the process as the operating system keeps it: 0 when
    the module body runs to its end, 1 after an uncaught exception, and the
    low eight bits of the argument of [sys.exit] otherwise. *)
Definition exit_status {X} (r : Reply X) : Z :=
  match r with
  | Returned _ => 0
  | Raised _ => 1
  | Exited z => z mod 256
  end.

Section Generic.
Context {St : Type}.

(** The framework: what each call answers in a state, and the next state. *)
Variable handle : forall c : Call, St -> Reply (ret c) * St.

Record Step := { step_call : Call; step_end : Completion; step_post : St }.

Record Run (A : Type) := { outcome : Reply A; final : St; steps : list Step }.
Arguments outcome {A} r.
Arguments final {A} r.
Arguments steps {A} r.

(** There is no handler construct in a script: the first call that does
    not return ends the run. *)
Fixpoint run {A} (p : Script A) (s : St) : Run A :=
  match p with
  | Ret a => {| outcome := Returned a; final := s; steps := [] |}
  | Do c k =>
      let (r, s') := handle c s in
      let st := {| step_call := c; step_end := completion r; step_post := s' |} in
      match r with
      | Returned x =>
          let rest := run (k x) s' in
          {| outcome := outcome rest; final := final rest; steps := st :: steps rest |}
      | Raised e => {| outcome := Raised e; final := s'; steps := [st] |}
      | Exited z => {| outcome := Exited z; final := s'; steps := [st] |}
      end
  end.

Definition calls {A} (r : Run A) : list Call := map step_call (steps r).

(** The states the run goes through, the initial one first. *)
Definition visited {A} (p : Script A) (s : St) : list St :=
  s :: map step_post (steps (run p s)).
End Generic.

Arguments outcome {St A} r.
Arguments final {St A} r.
Arguments steps {St A} r.
Arguments step_call {St} s.
Arguments step_end {St} s.
Arguments step_post {St} s.

Section Modules.
Context {St : Type}.
Variable handle : forall c : Call, St -> Reply (ret c) * St.

(** A guarded module runs its body; an exception the body ends with is
    handed to the handler, whose run continues from the state reached. *)
Fixpoint execute {A} (m : Program A) (s : St) : Run A :=
  match m with
  | Plain body => run handle body s
  | TryExcept body handler =>
      let r := execute body s in
      match outcome r with
      | Raised e =>
          let r' := execute (handler e) (final r) in
          {| outcome := outcome r'; final := final r'; steps := steps r ++ steps r' |}
      | _ => r
      end
  end.
End Modules.

(** ** Environment: the working directory and Python's [glob] *)

(** The directory tree below the working directory of the process. *)
#[warnings="-register-all"]
Inductive Node :=
| File
| Dir (entries : list (string * Node)).

Definition listdir (n : Node) : list (string * Node) :=
  match n with
  | File => []
  | Dir entries => entries
  end.

Fixpoint contains (c : ascii) (s : string) : bool :=
  match s with
  | EmptyString => false
  | String d rest => Ascii.eqb c d || contains c rest
  end.

(** A directory entry is named by a non-empty string without a separator. *)
Definition entry_name_ok (name : string) : bool :=
  negb (String.eqb name "") && negb (contains "/" name).

Fixpoint well_formed (n : Node) : bool :=
  match n with
  | File => true
  | Dir entries =>
      forallb (fun e => entry_name_ok (fst e) && well_formed (snd e)) entries
  end.

(** [fnmatch.fnmatch(name, pat)] for patterns made of literal characters,
    [*] (any run of characters) and [?] (any one character). *)
Fixpoint fnmatch_pat (pat : string) : string -> bool :=
  match pat with
  | EmptyString =>
      fun name => match name with EmptyString => true | String _ _ => false end
  | String p pat' =>
      if Ascii.eqb p "*" then
        fix star (name : string) : bool :=
          fnmatch_pat pat' name
          || match name with
             | EmptyString => false
             | String _ name' => star name'
             end
      else if Ascii.eqb p "?" then
        fun name =>
          match name with
          | EmptyString => false
          | String _ name' => fnmatch_pat pat' name'
          end
      else
        fun name =>
          match name with
          | EmptyString => false
          | String c name' => Ascii.eqb p c && fnmatch_pat pat' name'
          end
  end.

Definition fnmatch (name pat : string) : bool := fnmatch_pat pat name.

Definition has_magic (s : string) : bool :=
  contains "*" s || contains "?" s || contains "[" s.

Definition ishidden (s : string) : bool :=
  match s with
  | String c _ => Ascii.eqb c "."
  | EmptyString => false
  end.

(** The components of a relative path, split at every separator. *)
Fixpoint components (path : string) : list string :=
  match path with
  | EmptyString => [EmptyString]
  | String c rest =>
      if Ascii.eqb c "/" then EmptyString :: components rest
      else match components rest with
           | [] => [String c EmptyString]
           | h :: t => String c h :: t
           end
  end.

Definition lookup_entry (name : string) (entries : list (string * Node))
  : option (string * Node) :=
  List.find (fun e => String.eqb (fst e) name) entries.

(** The entries of a directory one pattern component selects: the entry of
    that name for a literal component, and for a component with wildcards
    the entries that match it, dot files left out unless the component
    itself starts with a dot. *)
Definition select (component : string) (entries : list (string * Node))
  : list (string * Node) :=
  if has_magic component then
    List.filter
      (fun e => (ishidden component || negb (ishidden (fst e)))
                && fnmatch (fst e) component)
      entries
  else
    match lookup_entry component entries with
    | Some e => [e]
    | None => []
    end.

Fixpoint glob_from (dir : Node) (comps : list string) : list (list string) :=
  match comps with
  | [] => [[]]
  | c :: rest =>
      flat_map (fun e => map (cons (fst e)) (glob_from (snd e) rest))
               (select c (listdir dir))
  end.

(** [glob.glob(pathname)] for a relative pattern, in the working directory
    [cwd]: the paths that match, each one the names joined by the separator. *)
Definition glob (cwd : Node) (pathname : string) : list string :=
  map (String.concat "/") (glob_from cwd (components pathname)).

(** ** Environment: the VUnit runner *)

Inductive Builtins := VhdlBuiltins | VerilogBuiltins.

(** One [add_source_files] registration: the pattern, the standard the files
    are compiled under, and the files the pattern matched. *)
Record SourceSet := {
  set_pattern : string;
  set_standard : option string;
  set_files : list string
}.

Record LibraryDecl := {
  decl_name : string;
  decl_sources : list SourceSet
}.

Definition add_sources (ss : SourceSet) (name : string) (l : LibraryDecl) : LibraryDecl :=
  if String.eqb (decl_name l) name
  then {| decl_name := decl_name l; decl_sources := decl_sources l ++ [ss] |}
  else l.

Definition has_library (name : string) (ls : list LibraryDecl) : bool :=
  existsb (fun l => String.eqb (decl_name l) name) ls.

Section Reference.
(** The argument parser and the test run belong to the framework. *)
Variable Config : Type.
Variable parse_args : list string -> Reply Config.

Record Runner := {
  config : Config;
  builtins : option Builtins;
  libraries : list LibraryDecl
}.

(** Whether the tests of a configured runner all pass. *)
Variable all_ok : Runner -> Node -> bool.

Record World := {
  argv : list string;
  cwd : Node;
  runners : list Runner
}.

Definition initial_world (args : list string) (dir : Node) : World :=
  {| argv := args; cwd := dir; runners := [] |}.

Definition set_runner (w : World) (vu : VUnit) (r : Runner) : World :=
  {| argv := argv w; cwd := cwd w; runners := <[vu_id vu := r]> (runners w) |}.

Definition no_such_object {X} : Reply X := Raised (OtherError "ReferenceError" "").

(** [VUnit.from_argv()]: a new runner configured from [sys.argv]. *)
Definition do_from_argv (w : World) : Reply VUnit * World :=
  match parse_args (argv w) with
  | Returned cfg =>
      (Returned {| vu_id := length (runners w) |},
       {| argv := argv w; cwd := cwd w;
          runners := runners w ++ [{| config := cfg; builtins := None; libraries := [] |}] |})
  | Raised e => (Raised e, w)
  | Exited z => (Exited z, w)
  end.

Definition do_add_vhdl_builtins (self : VUnit) (w : World) : Reply unit * World :=
  match runners w !! vu_id self with
  | None => (no_such_object, w)
  | Some r =>
      (Returned tt,
       set_runner w self {| config := config r; builtins := Some VhdlBuiltins;
                            libraries := libraries r |})
  end.

(** [add_library(library_name)]: a name already present is refused with a
    [ValueError]; a new one is appended to the runner's libraries. *)
Definition do_add_library (self : VUnit) (name : string) (w : World)
  : Reply Library * World :=
  match runners w !! vu_id self with
  | None => (no_such_object, w)
  | Some r =>
      if has_library name (libraries r) then
        (Raised (ValueError ("Library " ++ name ++ " already exists")), w)
      else
        (Returned {| parent := self; library_name := name |},
         set_runner w self {| config := config r; builtins := builtins r;
                              libraries := libraries r
                                           ++ [{| decl_name := name; decl_sources := [] |}] |})
  end.

(** [add_source_files(pattern, allow_empty, vhdl_standard)]: the pattern is
    globbed in the working directory; as VUnit documents the keyword
    [allow_empty] (default [False]), a pattern without a match is an error
    unless it is set.  The standard tag is stored as passed.  A match is
    registered by its path, without being opened, and the text of the error
    messages is the model's own. *)
Definition do_add_source_files (self : Library) (pattern : string)
    (allow_empty : bool) (vhdl_standard : option string) (w : World)
  : Reply unit * World :=
  match runners w !! vu_id (parent self) with
  | None => (no_such_object, w)
  | Some r =>
      if negb (has_library (library_name self) (libraries r)) then
        (no_such_object, w)
      else
        let file_names := glob (cwd w) pattern in
        if negb allow_empty && bool_decide (file_names = []) then
          (Raised (ValueError ("Pattern " ++ pattern ++ " did not match any file")), w)
        else
          let ss := {| set_pattern := pattern; set_standard := vhdl_standard;
                       set_files := file_names |} in
          (Returned tt,
           set_runner w (parent self)
             {| config := config r; builtins := builtins r;
                libraries := map (add_sources ss (library_name self)) (libraries r) |})
  end.

(** [main()]: runs the tests, then [sys.exit(0)] when all passed and
    [sys.exit(1)] otherwise.  This is [main] for a run without fatal error
    and without the switch [--exit-0]; [do_main_cli] below has both. *)
Definition do_main (self : VUnit) (w : World) : Reply Empty_set * World :=
  match runners w !! vu_id self with
  | None => (no_such_object, w)
  | Some r => (Exited (if all_ok r (cwd w) then 0 else 1), w)
  end.

Definition vunit (c : Call) : World -> Reply (ret c) * World :=
  match c with
  | from_argv => do_from_argv
  | add_vhdl_builtins self => do_add_vhdl_builtins self
  | add_library self name => do_add_library self name
  | add_source_files self pattern allow_empty std =>
      do_add_source_files self pattern allow_empty std
  | main self => do_main self
  end.

(** The names of the libraries a runner holds, in registration order. *)
Definition library_names (r : Runner) : list string := map decl_name (libraries r).

(** The files registered in a library. *)
Definition library_files (l : LibraryDecl) : list string :=
  flat_map set_files (decl_sources l).
End Reference.

Arguments config {Config} r.
Arguments builtins {Config} r.
Arguments libraries {Config} r.
Arguments argv {Config} w.
Arguments cwd {Config} w.
Arguments runners {Config} w.
Arguments initial_world {Config} args dir.
Arguments library_names {Config} r.

(** [main()] in full: a fatal error (a compile failure, for one) gives
    status 1; otherwise the status is 0 when all tests passed, and when a
    test failed it is 1 unless the run was started with [--exit-0].
    [do_main] above is the case without fatal error and without the switch. *)
Definition do_main_cli {Config : Type} (all_ok : Runner Config -> Node -> bool)
    (exit_0 : Config -> bool) (fatal : Runner Config -> Node -> bool)
    (self : VUnit) (w : World Config) : Reply Empty_set * World Config :=
  match runners w !! vu_id self with
  | None => (no_such_object, w)
  | Some r =>
      (Exited (if fatal r (cwd w) then 1
               else if all_ok r (cwd w) then 0
               else if exit_0 (config r) then 0
               else 1), w)
  end.

(** The reference runner with [main] in full. *)
Definition vunit_cli (Config : Type) (parse_args : list string -> Reply Config)
    (all_ok : Runner Config -> Node -> bool)
    (exit_0 : Config -> bool) (fatal : Runner Config -> Node -> bool)
    (c : Call) : World Config -> Reply (ret c) * World Config :=
  match c with
  | from_argv => vunit Config parse_args all_ok from_argv
  | add_vhdl_builtins self => vunit Config parse_args all_ok (add_vhdl_builtins self)
  | add_library self name => vunit Config parse_args all_ok (add_library self name)
  | add_source_files self pattern allow_empty std =>
      vunit Config parse_args all_ok (add_source_files self pattern allow_empty std)
  | main self => do_main_cli all_ok exit_0 fatal self
  end.

(** The invariant of the data model: within each runner, no two libraries
    share a name. *)
Definition unique_library_names {Config : Type} (w : World Config) : Prop :=
  Forall (fun r => NoDup (library_names r)) (runners w).

(** The number of separators in a path. *)
Fixpoint count_sep (path : string) : nat :=
  match path with
  | EmptyString => 0
  | String c rest => (if Ascii.eqb c "/" then 1 else 0) + count_sep rest
  end.

(** A call that registers sources does so under VHDL-2008. *)
Definition passes_2008 (c : Call) : Prop :=
  match c with
  | add_source_files _ _ _ vhdl_standard => vhdl_standard = Some "2008"
  | _ => True
  end.

(** The standard tag a call passes, for the calls that register sources. *)
Definition standard_passed (c : Call) : option (option string) :=
  match c with
  | add_source_files _ _ _ vhdl_standard => Some vhdl_standard
  | _ => None
  end.

(** A working directory with design and test sources, and one without any
    VHDL file; a parser that accepts every command line. *)
Definition sample_cwd : Node :=
  Dir [("run.py", File);
       ("src", Dir [("alu.vhd", File); (".hidden.vhd", File); ("notes.txt", File);
                    ("test", Dir [("alu_tb.vhd", File);
                                  ("deep", Dir [("x.vhd", File)])])])].

Definition empty_cwd : Node := Dir [("run.py", File)].

Definition accept_all (args : list string) : Reply (list string) := Returned args.

Definition tests_pass (r : Runner (list string)) (dir : Node) : bool := true.

Definition tests_fail (r : Runner (list string)) (dir : Node) : bool := false.


Definition exit_0_given (args : list string) : bool :=
  existsb (String.eqb "--exit-0") args.

Definition no_fatal_error (r : Runner (list string)) (dir : Node) : bool := false.

(** The calls of a complete run, in the order of the source, for the
    objects the framework handed out. *)
Definition expected_order (vu : VUnit) (lib test_lib : Library) : list Call :=
  [from_argv;
   add_vhdl_builtins vu;
   add_library vu "dcpu16_lib";
   add_source_files lib "src/*.vhd" false (Some "2008");
   add_library vu "dcpu16_test_lib";
   add_source_files test_lib "src/test/*.vhd" false (Some "2008");
   main vu].

Arguments glob : simpl never.

(** One case per way the framework can answer the next call of the goal. *)
Tactic Notation "framework_answers" constr(h) "as" ident(x) ident(s') :=
  match goal with
  | |- context [h ?c ?s] => destruct (h c s) as [[x | ? | ?] s'] eqn:?; simpl
  end.

Ltac stopped_after vu lib test_lib n :=
  exists vu, lib, test_lib, n;
  repeat split; try lia; try discriminate;
  try (intros [? ?]; discriminate);
  intros i self Hi; do 7 (try destruct i as [|i]); simplify_eq/=; reflexivity.

(** * The environment model on examples *)

Example components_test_pattern :
  components "src/test/*.vhd" = ["src"; "test"; "*.vhd"].
Proof. reflexivity. Qed.

Example fnmatch_examples :
  fnmatch "alu.vhd" "*.vhd" = true
  /\ fnmatch "alu.vhdl" "*.vhd" = false
  /\ fnmatch ".vhd" "*.vhd" = true
  /\ fnmatch "a.vhd.vhd" "*.vhd" = true
  /\ fnmatch "ab" "a?" = true
  /\ fnmatch "a" "a?" = false.
Proof. repeat split. Qed.

Example glob_sample_cwd :
  glob sample_cwd "src/*.vhd" = ["src/alu.vhd"]
  /\ glob sample_cwd "src/test/*.vhd" = ["src/test/alu_tb.vhd"]
  /\ glob sample_cwd "src/*/*.vhd" = ["src/test/alu_tb.vhd"]
  /\ glob sample_cwd "src/alu.vhd" = ["src/alu.vhd"]
  /\ glob sample_cwd "src/missing.vhd" = []
  /\ glob empty_cwd "src/*.vhd" = [].
Proof. repeat split. Qed.

Example run_py_on_sample_cwd :
  let r := run (vunit _ accept_all tests_pass) run_py (initial_world ["run.py"] sample_cwd) in
  outcome r = Exited 0
  /\ calls r = expected_order {| vu_id := 0 |}
                 {| parent := {| vu_id := 0 |}; library_name := "dcpu16_lib" |}
                 {| parent := {| vu_id := 0 |}; library_name := "dcpu16_test_lib" |}.
Proof. split; reflexivity. Qed.

Example second_add_library_is_refused :
  let fw := vunit _ accept_all tests_pass in
  let twice :=
    (vu <- call from_argv ;;
     call (add_library vu "dcpu16_lib") ;;
     call (add_library vu "dcpu16_lib"))%script in
  outcome (run fw twice (initial_world ["run.py"] sample_cwd))
  = Raised (ValueError "Library dcpu16_lib already exists").
Proof. reflexivity. Qed.

(** [fnmatch] against a pattern without wildcard is equality, and a leading
    star matches any prefix. *)
Lemma fnmatch_literal (pat name : string) :
  contains "*" pat = false -> contains "?" pat = false ->
  (fnmatch name pat = true <-> name = pat).
Proof.
  unfold fnmatch. revert name.
  induction pat as [| p pat IH]; intros name Hstar Hany.
  - destruct name; simpl; split; intros H; try reflexivity; discriminate H.
  - cbn [contains] in Hstar, Hany.
    apply orb_false_iff in Hstar as [Hp1 Hstar].
    apply orb_false_iff in Hany as [Hp2 Hany].
    cbn [fnmatch_pat]. rewrite (Ascii.eqb_sym p "*"), Hp1, (Ascii.eqb_sym p "?"), Hp2.
    destruct name as [| c name]; [split; intros H; discriminate H |].
    rewrite andb_true_iff, Ascii.eqb_eq, (IH name Hstar Hany).
    split; [intros [-> ->]; reflexivity | intros H; injection H as -> ->; auto].
Qed.

Lemma fnmatch_star (pat name : string) :
  fnmatch name (String "*" pat) = true
  <-> exists stem rest, name = stem ++ rest /\ fnmatch rest pat = true.
Proof.
  unfold fnmatch.
  assert (forall n, fnmatch_pat (String "*" pat) n
                    = fnmatch_pat pat n
                      || match n with
                         | EmptyString => false
                         | String _ n' => fnmatch_pat (String "*" pat) n'
                         end) as Hunfold
    by (intros [| c n]; reflexivity).
  induction name as [| c name IH]; rewrite Hunfold, orb_true_iff.
  - split.
    + intros [H | H]; [| discriminate H]. exists "", "". auto.
    + intros ([| ? ?] & rest & Heq & H); simpl in Heq; [| discriminate Heq].
      subst rest. auto.
  - split.
    + intros [H | H].
      * exists "", (String c name). auto.
      * apply IH in H as (stem & rest & -> & H).
        exists (String c stem), rest. auto.
    + intros ([| d stem] & rest & Heq & H); simpl in Heq.
      * subst rest. auto.
      * injection Heq as -> ->. right. apply IH. eauto.
Qed.

(** What the wildcard component of both patterns selects: the names that
    end in ".vhd". *)
Lemma fnmatch_vhd (name : string) :
  fnmatch name "*.vhd" = true <-> exists stem, name = stem ++ ".vhd".
Proof.
  rewrite fnmatch_star. split.
  - intros (stem & rest & -> & H).
    apply fnmatch_literal in H; [| reflexivity ..]. subst rest. eauto.
  - intros (stem & ->). exists stem, ".vhd". split; reflexivity.
Qed.

(** * Properties that hold for every framework *)

Section GenericFacts.
Context {St : Type}.
Variable handle : forall c : Call, St -> Reply (ret c) * St.

Lemma run_bind {A B} (p : Script A) (f : A -> Script B) (s : St) :
  run handle (bind p f) s =
  match outcome (run handle p s) with
  | Returned a =>
      let rest := run handle (f a) (final (run handle p s)) in
      {| outcome := outcome rest; final := final rest;
         steps := steps (run handle p s) ++ steps rest |}
  | Raised e =>
      {| outcome := Raised e; final := final (run handle p s);
         steps := steps (run handle p s) |}
  | Exited z =>
      {| outcome := Exited z; final := final (run handle p s);
         steps := steps (run handle p s) |}
  end.
Proof.
  revert s. induction p as [a | c k IH]; intros s; simpl.
  - destruct (run handle (f a) s); reflexivity.
  - destruct (handle c s) as [[x | e | z] s']; simpl; try reflexivity.
    rewrite IH. destruct (outcome (run handle (k x) s')); reflexivity.
Qed.

Lemma run_py_setup_main :
  run_py = bind setup (fun vu => bind (call (main vu)) (fun never : Empty_set => match never with end)).
Proof. reflexivity. Qed.

End GenericFacts.

(** C7. On every run, whatever the framework answers, the calls of the
    script are an initial part of the fixed sequence "from_argv, add the
    built-ins, add and fill the design library, add and fill the test
    library, main", starting with [from_argv]; the sequence is complete when
    setup returns; a call of [main] is the last call of the run, and the run
    never continues past it. *)
Theorem run_py_call_order {St : Type}
    (handle : forall c : Call, St -> Reply (ret c) * St) (s : St) :
  exists vu lib test_lib n,
    (1 <= n <= 7)%nat
    /\ calls (run handle run_py s) = take n (expected_order vu lib test_lib)
    /\ ((exists v, outcome (run handle setup s) = Returned v) -> n = 7%nat)
    /\ (forall i self, calls (run handle run_py s) !! i = Some (main self) ->
        length (calls (run handle run_py s)) = Datatypes.S i)
    /\ outcome (run handle run_py s) <> Returned tt.
Proof.
  pose (nobody := {| vu_id := 0 |}).
  pose (nothing := {| parent := nobody; library_name := "" |}).
  unfold calls, run_py, setup, add_source_files_std. simpl.
  framework_answers handle as vu s1;
    [| stopped_after nobody nothing nothing 1%nat ..].
  framework_answers handle as u2 s2;
    [| stopped_after vu nothing nothing 2%nat ..].
  framework_answers handle as lib s3;
    [| stopped_after vu nothing nothing 3%nat ..].
  framework_answers handle as u4 s4;
    [| stopped_after vu lib nothing 4%nat ..].
  framework_answers handle as test_lib s5;
    [| stopped_after vu lib nothing 5%nat ..].
  framework_answers handle as u6 s6;
    [| stopped_after vu lib test_lib 6%nat ..].
  framework_answers handle as never s7;
    [destruct never | stopped_after vu lib test_lib 7%nat ..].
Qed.

(** * Properties of the script on the reference runner *)


Section ReferenceFacts.
Variable Config : Type.
Variable parse_args : list string -> Reply Config.
Variable all_ok : Runner Config -> Node -> bool.

Local Abbreviation fw := (vunit Config parse_args all_ok).

(** The run of setup on the reference runner, case by case: the parser may
    refuse the command line, either pattern may match nothing, or all six
    calls return. *)
Lemma setup_on_reference (args : list string) (dir : Node) :
  let r := run fw setup (initial_world args dir) in
  cwd (final r) = dir /\
  match parse_args args with
  | Raised e => outcome r = Raised e /\ runners (final r) = []
  | Exited z => outcome r = Exited z /\ runners (final r) = []
  | Returned cfg =>
      if bool_decide (glob dir "src/*.vhd" = []) then
        outcome r = Raised (ValueError "Pattern src/*.vhd did not match any file")
        /\ runners (final r) =
           [{| config := cfg; builtins := Some VhdlBuiltins;
               libraries := [{| decl_name := "dcpu16_lib"; decl_sources := [] |}] |}]
      else if bool_decide (glob dir "src/test/*.vhd" = []) then
        outcome r = Raised (ValueError "Pattern src/test/*.vhd did not match any file")
        /\ runners (final r) =
           [{| config := cfg; builtins := Some VhdlBuiltins;
               libraries :=
                 [{| decl_name := "dcpu16_lib";
                     decl_sources := [{| set_pattern := "src/*.vhd"; set_standard := Some "2008";
                                         set_files := glob dir "src/*.vhd" |}] |};
                  {| decl_name := "dcpu16_test_lib"; decl_sources := [] |}] |}]
      else
        outcome r = Returned {| vu_id := 0 |}
        /\ runners (final r) =
           [{| config := cfg; builtins := Some VhdlBuiltins;
               libraries :=
                 [{| decl_name := "dcpu16_lib";
                     decl_sources := [{| set_pattern := "src/*.vhd"; set_standard := Some "2008";
                                         set_files := glob dir "src/*.vhd" |}] |};
                  {| decl_name := "dcpu16_test_lib";
                     decl_sources := [{| set_pattern := "src/test/*.vhd";
                                         set_standard := Some "2008";
                                         set_files := glob dir "src/test/*.vhd" |}] |}] |}]
  end.
Proof.
  unfold setup, add_source_files_std. simpl. unfold do_from_argv. simpl.
  destruct (parse_args args) as [cfg | e | z]; simpl; [| auto ..].
  unfold do_add_source_files. simpl.
  destruct (bool_decide (glob dir "src/*.vhd" = [])); simpl; [auto |].
  destruct (bool_decide (glob dir "src/test/*.vhd" = [])); simpl; auto.
Qed.
End ReferenceFacts.

(** C1, as the spec words it, fails: on a working directory with design and
    test sources setup completes, and the runner's libraries are named
    dcpu16_lib and dcpu16_test_lib; neither "design" nor "test" is
    registered. *)
Lemma design_and_test_are_not_registered :
  let r := run (vunit _ accept_all tests_pass) setup (initial_world ["run.py"] sample_cwd) in
  outcome r = Returned {| vu_id := 0 |}
  /\ (map library_names (runners (final r)) = [["dcpu16_lib"; "dcpu16_test_lib"]])
  /\ ~ (exists rn, runners (final r) !! 0%nat = Some rn
                   /\ "design" ∈ library_names rn /\ "test" ∈ library_names rn).
Proof.
  vm_compute. split; [reflexivity | split; [reflexivity |]].
  intros (rn & Hrn & Hd & _). injection Hrn as <-.
  repeat (apply elem_of_cons in Hd as [Hd | Hd]; [discriminate Hd |]).
  inversion Hd.
Qed.

(** C1 (amended). After setup completes, the runner holds exactly two
    libraries, dcpu16_lib and dcpu16_test_lib in that order; the two names
    differ and both are present. *)
Theorem registered_libraries_after_setup
    (Config : Type) (parse_args : list string -> Reply Config)
    (all_ok : Runner Config -> Node -> bool)
    (args : list string) (dir : Node) (vu : VUnit) :
  outcome (run (vunit Config parse_args all_ok) setup (initial_world args dir)) = Returned vu ->
  exists rn,
    runners (final (run (vunit Config parse_args all_ok) setup (initial_world args dir)))
      !! vu_id vu = Some rn
    /\ library_names rn = ["dcpu16_lib"; "dcpu16_test_lib"]
    /\ length (libraries rn) = 2%nat
    /\ NoDup (library_names rn)
    /\ "dcpu16_lib" ∈ library_names rn
    /\ "dcpu16_test_lib" ∈ library_names rn.
Proof.
  intros Hdone.
  destruct (setup_on_reference Config parse_args all_ok args dir) as [_ H].
  destruct (parse_args args) as [cfg | e | z];
    [| destruct H as [H _]; rewrite H in Hdone; discriminate Hdone ..].
  destruct (bool_decide (glob dir "src/*.vhd" = []));
    [destruct H as [H _]; rewrite H in Hdone; discriminate Hdone |].
  destruct (bool_decide (glob dir "src/test/*.vhd" = []));
    [destruct H as [H _]; rewrite H in Hdone; discriminate Hdone |].
  destruct H as [Ho Hr]. rewrite Ho in Hdone. injection Hdone as <-.
  rewrite Hr. eexists. split; [reflexivity |].
  unfold library_names. simpl. repeat split.
  - apply NoDup_cons_2; [| apply NoDup_singleton].
    intros Hin. apply list_elem_of_singleton in Hin. discriminate Hin.
  - apply list_elem_of_here.
  - apply list_elem_of_further, list_elem_of_here.
Qed.

Lemma registered_libraries_after_setup_witness :
  exists rn,
    runners (final (run (vunit _ accept_all tests_pass) setup
                      (initial_world ["run.py"] sample_cwd))) !! 0%nat = Some rn
    /\ library_names rn = ["dcpu16_lib"; "dcpu16_test_lib"].
Proof.
  destruct (registered_libraries_after_setup (list string) accept_all tests_pass
              ["run.py"] sample_cwd {| vu_id := 0 |}) as (rn & Hrn & Hnames & _).
  - reflexivity.
  - exists rn. split; [exact Hrn | exact Hnames].
Defined.

Section SetupAndMain.
Context {St : Type}.
Variable handle : forall c : Call, St -> Reply (ret c) * St.

Lemma setup_never_calls_main (s : St) (self : VUnit) :
  main self ∉ calls (run handle setup s).
Proof.
  unfold calls, setup, add_source_files_std. simpl.
  repeat (match goal with
          | |- context [handle ?c ?s0] =>
              destruct (handle c s0) as [[? | ? | ?] ?]; simpl
          end);
    intros H; repeat (apply elem_of_cons in H as [H | H]; [discriminate H |]);
    inversion H.
Qed.

Lemma run_py_when_setup_raises (s : St) (e : PyException) :
  outcome (run handle setup s) = Raised e ->
  outcome (run handle run_py s) = Raised e
  /\ final (run handle run_py s) = final (run handle setup s)
  /\ steps (run handle run_py s) = steps (run handle setup s).
Proof.
  intros H. rewrite run_py_setup_main, run_bind, H. auto.
Qed.
End SetupAndMain.

Section EndOfTheRun.
Context {St : Type}.
Variable handle : forall c : Call, St -> Reply (ret c) * St.


End EndOfTheRun.

(** A module that guards the same calls does catch: without a VHDL file the
    guarded script returns and the process status is 0. *)
Example guarded_module_catches :
  let guarded := TryExcept (Plain run_py) (fun _ => Plain (Ret tt)) in
  let r := execute (vunit _ accept_all tests_pass) guarded (initial_world ["run.py"] empty_cwd) in
  handler_free guarded = false /\ outcome r = Returned tt /\ exit_status (outcome r) = 0.
Proof. repeat split. Qed.



Lemma setup_same_on_cli (Config : Type) (parse_args : list string -> Reply Config)
    (all_ok : Runner Config -> Node -> bool)
    (exit_0 : Config -> bool) (fatal : Runner Config -> Node -> bool)
    (w : World Config) :
  run (vunit_cli Config parse_args all_ok exit_0 fatal) setup w
  = run (vunit Config parse_args all_ok) setup w.
Proof. reflexivity. Qed.

(** C6, as stated, fails: started with [--exit-0] on sources whose tests do
    not all pass, setup completes, [main] reports 0 and the process status
    is 0, not a non-zero status. *)
Lemma failing_tests_exit_zero :
  let fw := vunit_cli _ accept_all tests_fail exit_0_given no_fatal_error in
  let w0 := initial_world ["run.py"; "--exit-0"] sample_cwd in
  outcome (run fw setup w0) = Returned {| vu_id := 0 |}
  /\ (exists rn, runners (final (run fw setup w0)) !! 0%nat = Some rn
                 /\ tests_fail rn sample_cwd = false)
  /\ outcome (run fw run_py w0) = Exited 0
  /\ ~ (exit_status (outcome (run fw run_py w0)) <> 0).
Proof.
  vm_compute. split; [reflexivity |]. split; [eexists; split; reflexivity |].
  split; [reflexivity |]. intros H. apply H. reflexivity.
Qed.

(** C6 (amended). When setup returns, the process ends the way [main] ends
    and its exit status is the status [main] reports, as the operating
    system keeps it; the script changes nothing.  On the VUnit runner that
    status is 0 or 1: it is 0 when all tests pass or, with a failing test,
    when the run was started with [--exit-0], always provided no fatal error
    occurred, and it is 1 otherwise. *)
Theorem exit_status_is_main_status {St : Type}
    (handle : forall c : Call, St -> Reply (ret c) * St) (s : St)
    (Config : Type) (parse_args : list string -> Reply Config)
    (all_ok : Runner Config -> Node -> bool)
    (exit_0 : Config -> bool) (fatal : Runner Config -> Node -> bool)
    (args : list string) (dir : Node) (vu : VUnit) :
  (outcome (run handle setup s) = Returned vu ->
   completion (outcome (run handle run_py s))
   = completion (fst (handle (main vu) (final (run handle setup s))))
   /\ exit_status (outcome (run handle run_py s))
      = exit_status (fst (handle (main vu) (final (run handle setup s)))))
  /\ (outcome (run (vunit_cli Config parse_args all_ok exit_0 fatal) setup
                 (initial_world args dir)) = Returned vu ->
      exists rn,
        runners (final (run (vunit_cli Config parse_args all_ok exit_0 fatal) setup
                          (initial_world args dir))) !! vu_id vu = Some rn
        /\ (exit_status (outcome (run (vunit_cli Config parse_args all_ok exit_0 fatal) run_py
                                    (initial_world args dir))) = 0
            <-> fatal rn dir = false /\ (all_ok rn dir = true \/ exit_0 (config rn) = true))
        /\ (exit_status (outcome (run (vunit_cli Config parse_args all_ok exit_0 fatal) run_py
                                    (initial_world args dir))) = 0
            \/ exit_status (outcome (run (vunit_cli Config parse_args all_ok exit_0 fatal) run_py
                                       (initial_world args dir))) = 1)).
Proof.
  split.
  - intros Hsetup. rewrite run_py_setup_main, run_bind, Hsetup.
    remember (final (run handle setup s)) as s1 eqn:Hs1. clear Hs1 Hsetup.
    simpl. destruct (handle (main vu) s1) as [[[] | e | z] s']; simpl; auto.
  - rewrite run_py_setup_main, run_bind, !setup_same_on_cli. intros Hdone.
    destruct (setup_on_reference Config parse_args all_ok args dir) as [Hcwd H].
    destruct (parse_args args) as [cfg | e | z];
      [| destruct H as [H _]; rewrite H in Hdone; discriminate Hdone ..].
    destruct (bool_decide (glob dir "src/*.vhd" = []));
      [destruct H as [H _]; rewrite H in Hdone; discriminate Hdone |].
    destruct (bool_decide (glob dir "src/test/*.vhd" = []));
      [destruct H as [H _]; rewrite H in Hdone; discriminate Hdone |].
    destruct H as [Ho Hr]. rewrite Ho in Hdone. injection Hdone as <-. rewrite Ho.
    remember (final (run (vunit Config parse_args all_ok) setup (initial_world args dir)))
      as w eqn:Hw. clear Hw Ho.
    simpl. unfold do_main_cli. rewrite Hr, Hcwd. simpl.
    eexists. split; [reflexivity |]. simpl.
    destruct (fatal _ dir), (all_ok _ dir), (exit_0 cfg); simpl;
      (split; [split; [intros H; try discriminate H; auto
                      | intros [Hf [Ha | Ha]]; try discriminate; reflexivity]
              | auto]).
Qed.

Lemma exit_status_is_main_status_witness :
  let fw := vunit_cli _ accept_all tests_fail exit_0_given no_fatal_error in
  let w0 := initial_world ["run.py"; "-v"] sample_cwd in
  exit_status (outcome (run fw run_py w0)) = 1
  /\ exit_status (outcome (run fw run_py w0))
     = exit_status (fst (fw (main {| vu_id := 0 |}) (final (run fw setup w0)))).
Proof.
  intros fw w0.
  destruct (exit_status_is_main_status fw w0 (list string) accept_all tests_fail
              exit_0_given no_fatal_error ["run.py"; "-v"] sample_cwd {| vu_id := 0 |})
    as [Hpass Hcli].
  destruct Hpass as [_ Hstatus]; [reflexivity |].
  destruct Hcli as (rn & _ & _ & [H0 | H1]); [reflexivity | | ].
  - vm_compute in H0. discriminate H0.
  - split; [exact H1 | exact Hstatus].
Defined.

(** C2, as stated, fails: in a working directory without any VHDL file both
    patterns match nothing, and setup ends with a [ValueError] instead of
    returning. *)
Lemma setup_without_vhdl_files_raises :
  let r := run (vunit _ accept_all tests_pass) setup (initial_world ["run.py"] empty_cwd) in
  glob empty_cwd "src/*.vhd" = []
  /\ glob empty_cwd "src/test/*.vhd" = []
  /\ (exists msg, outcome r = Raised (ValueError msg))
  /\ ~ (exists vu, outcome r = Returned vu).
Proof.
  vm_compute. split; [reflexivity |]. split; [reflexivity |].
  split; [eexists; reflexivity |]. intros [vu H]. discriminate H.
Qed.

(** C2 (amended). When [from_argv] accepts the command line and neither
    pattern matches a file, the script registers dcpu16_lib without sources
    and the first [add_source_files], called with [allow_empty] at its
    default, raises a [ValueError]: the process ends with status 1, the test
    library is not registered and [main] is not called. *)
Theorem setup_without_matches_stops_at_first_pattern
    (Config : Type) (parse_args : list string -> Reply Config)
    (all_ok : Runner Config -> Node -> bool)
    (args : list string) (dir : Node) (cfg : Config) :
  parse_args args = Returned cfg ->
  glob dir "src/*.vhd" = [] ->
  glob dir "src/test/*.vhd" = [] ->
  (exists msg,
     outcome (run (vunit Config parse_args all_ok) run_py (initial_world args dir))
     = Raised (ValueError msg))
  /\ exit_status (outcome (run (vunit Config parse_args all_ok) run_py (initial_world args dir))) = 1
  /\ (exists rn,
        runners (final (run (vunit Config parse_args all_ok) run_py (initial_world args dir)))
        = [rn]
        /\ config rn = cfg
        /\ libraries rn = [{| decl_name := "dcpu16_lib"; decl_sources := [] |}]
        /\ "dcpu16_test_lib" ∉ library_names rn)
  /\ calls (run (vunit Config parse_args all_ok) run_py (initial_world args dir))
     = [from_argv;
        add_vhdl_builtins {| vu_id := 0 |};
        add_library {| vu_id := 0 |} "dcpu16_lib";
        add_source_files {| parent := {| vu_id := 0 |}; library_name := "dcpu16_lib" |}
          "src/*.vhd" false (Some "2008")]
  /\ (forall self, main self ∉ calls (run (vunit Config parse_args all_ok) run_py
                                        (initial_world args dir))).
Proof.
  intros Hargs Hdesign _.
  destruct (setup_on_reference Config parse_args all_ok args dir) as [_ H].
  rewrite Hargs, Hdesign in H. simpl in H. destruct H as [Ho Hr].
  destruct (run_py_when_setup_raises (vunit Config parse_args all_ok) _ _ Ho)
    as (Ho' & Hf' & Hs').
  rewrite Ho', Hf'. split; [eexists; reflexivity |]. split; [reflexivity |].
  split; [| split].
  - eexists. split; [exact Hr |]. split; [reflexivity |].
    split; [reflexivity |]. unfold library_names. simpl.
    intros Hin. apply list_elem_of_singleton in Hin. discriminate Hin.
  - unfold calls. rewrite Hs'.
    unfold setup, add_source_files_std. simpl. unfold do_from_argv. simpl.
    rewrite Hargs. simpl. unfold do_add_source_files. simpl.
    rewrite Hdesign. reflexivity.
  - intros self. unfold calls. rewrite Hs'. apply setup_never_calls_main.
Qed.

Lemma setup_without_matches_stops_at_first_pattern_witness :
  let r := run (vunit _ accept_all tests_pass) run_py (initial_world ["run.py"] empty_cwd) in
  (exists msg, outcome r = Raised (ValueError msg))
  /\ exit_status (outcome r) = 1
  /\ length (calls r) = 4%nat.
Proof.
  intros r.
  destruct (setup_without_matches_stops_at_first_pattern (list string) accept_all tests_pass
              ["run.py"] empty_cwd ["run.py"]) as (Ho & Hs & _ & Hc & _).
  - reflexivity.
  - reflexivity.
  - reflexivity.
  - split; [exact Ho |]. split; [exact Hs |]. unfold r. rewrite Hc. reflexivity.
Defined.

(** C3. When setup completes, the runner holds exactly two libraries, and
    each of them has exactly one source registration, made of one glob
    pattern and one language-standard tag: dcpu16_lib with src/*.vhd and
    dcpu16_test_lib with src/test/*.vhd, both tagged 2008. *)
Theorem two_libraries_one_pattern_each
    (Config : Type) (parse_args : list string -> Reply Config)
    (all_ok : Runner Config -> Node -> bool)
    (args : list string) (dir : Node) (vu : VUnit) :
  outcome (run (vunit Config parse_args all_ok) setup (initial_world args dir)) = Returned vu ->
  exists rn design_files test_files,
    runners (final (run (vunit Config parse_args all_ok) setup (initial_world args dir)))
      !! vu_id vu = Some rn
    /\ libraries rn =
       [{| decl_name := "dcpu16_lib";
           decl_sources := [{| set_pattern := "src/*.vhd"; set_standard := Some "2008";
                               set_files := design_files |}] |};
        {| decl_name := "dcpu16_test_lib";
           decl_sources := [{| set_pattern := "src/test/*.vhd"; set_standard := Some "2008";
                               set_files := test_files |}] |}]
    /\ length (libraries rn) = 2%nat
    /\ Forall (fun l => length (decl_sources l) = 1%nat) (libraries rn).
Proof.
  intros Hdone.
  destruct (setup_on_reference Config parse_args all_ok args dir) as [_ H].
  destruct (parse_args args) as [cfg | e | z];
    [| destruct H as [H _]; rewrite H in Hdone; discriminate Hdone ..].
  destruct (bool_decide (glob dir "src/*.vhd" = []));
    [destruct H as [H _]; rewrite H in Hdone; discriminate Hdone |].
  destruct (bool_decide (glob dir "src/test/*.vhd" = []));
    [destruct H as [H _]; rewrite H in Hdone; discriminate Hdone |].
  destruct H as [Ho Hr]. rewrite Ho in Hdone. injection Hdone as <-.
  rewrite Hr. do 3 eexists. split; [reflexivity |]. simpl.
  split; [reflexivity |]. split; [reflexivity |].
  repeat constructor.
Qed.

Lemma two_libraries_one_pattern_each_witness :
  exists rn,
    runners (final (run (vunit _ accept_all tests_pass) setup
                      (initial_world ["run.py"] sample_cwd))) !! 0%nat = Some rn
    /\ map (fun l => (decl_name l, map set_pattern (decl_sources l))) (libraries rn)
       = [("dcpu16_lib", ["src/*.vhd"]); ("dcpu16_test_lib", ["src/test/*.vhd"])].
Proof.
  destruct (two_libraries_one_pattern_each (list string) accept_all tests_pass
              ["run.py"] sample_cwd {| vu_id := 0 |})
    as (rn & design_files & test_files & Hrn & Hlibs & _).
  - reflexivity.
  - exists rn. split; [exact Hrn |]. rewrite Hlibs. reflexivity.
Defined.

Section Invariant.
Variable Config : Type.
Variable parse_args : list string -> Reply Config.
Variable all_ok : Runner Config -> Node -> bool.

Local Abbreviation fw := (vunit Config parse_args all_ok).

Lemma has_library_false (name : string) (ls : list LibraryDecl) :
  has_library name ls = false -> name ∉ map decl_name ls.
Proof.
  induction ls as [| l ls IH]; simpl; intros H.
  - apply not_elem_of_nil.
  - apply orb_false_iff in H as [Hl Hls].
    apply not_elem_of_cons. split; [| exact (IH Hls)].
    intros ->. rewrite String.eqb_refl in Hl. discriminate Hl.
Qed.

Lemma add_sources_names (ss : SourceSet) (name : string) (ls : list LibraryDecl) :
  map decl_name (map (add_sources ss name) ls) = map decl_name ls.
Proof.
  induction ls as [| l ls IH]; simpl; [reflexivity |].
  rewrite IH. f_equal. unfold add_sources.
  destruct (String.eqb (decl_name l) name); reflexivity.
Qed.

Lemma set_runner_unique (w : World Config) (vu : VUnit) (r : Runner Config) :
  unique_library_names w -> NoDup (library_names r) ->
  unique_library_names (set_runner Config w vu r).
Proof.
  unfold unique_library_names, set_runner. simpl. intros Hw Hr.
  apply Forall_insert; assumption.
Qed.

(** Every entry point keeps the names of each runner distinct:
    [add_library] is the only one that adds a name, and it refuses a name
    that is already there. *)
Lemma vunit_keeps_names_unique (c : Call) (w : World Config) :
  unique_library_names w -> unique_library_names (snd (fw c w)).
Proof.
  intros Hw. destruct c as [| self | self name | self pattern allow std | self]; simpl.
  - unfold do_from_argv. destruct (parse_args (argv w)); simpl; try exact Hw.
    unfold unique_library_names. simpl. apply Forall_app. split; [exact Hw |].
    apply Forall_singleton. apply NoDup_nil_2.
  - unfold do_add_vhdl_builtins.
    destruct (runners w !! vu_id self) as [r |] eqn:Hr; simpl; [| exact Hw].
    apply set_runner_unique; [exact Hw |].
    exact (Forall_lookup_1 _ _ _ _ Hw Hr).
  - unfold do_add_library.
    destruct (runners w !! vu_id self) as [r |] eqn:Hr; simpl; [| exact Hw].
    destruct (has_library name (libraries r)) eqn:Hhas; simpl; [exact Hw |].
    apply set_runner_unique; [exact Hw |].
    unfold library_names. simpl. rewrite map_app. simpl.
    apply list.NoDup_app. split; [exact (Forall_lookup_1 _ _ _ _ Hw Hr) |].
    split; [| apply NoDup_singleton].
    intros x Hx Hx'. apply list_elem_of_singleton in Hx'. subst x.
    exact (has_library_false _ _ Hhas Hx).
  - unfold do_add_source_files.
    destruct (runners w !! vu_id (parent self)) as [r |] eqn:Hr; simpl; [| exact Hw].
    destruct (negb (has_library (library_name self) (libraries r))); simpl; [exact Hw |].
    destruct (negb allow && bool_decide (glob (cwd w) pattern = [])); simpl; [exact Hw |].
    apply set_runner_unique; [exact Hw |].
    unfold library_names. simpl. rewrite add_sources_names.
    exact (Forall_lookup_1 _ _ _ _ Hw Hr).
  - unfold do_main. destruct (runners w !! vu_id self); simpl; exact Hw.
Qed.

(** The invariant holds along the run of any script. *)
Lemma run_keeps_names_unique {A} (p : Script A) (w : World Config) :
  unique_library_names w ->
  Forall unique_library_names (visited fw p w)
  /\ unique_library_names (final (run fw p w)).
Proof.
  unfold visited. revert w. induction p as [a | c k IH]; intros w Hw; simpl.
  - split; [apply Forall_singleton |]; exact Hw.
  - pose proof (vunit_keeps_names_unique c w Hw) as Hstep.
    destruct (fw c w) as [[x | e | z] w']; simpl in *.
    + destruct (IH x w' Hstep) as [Hvis Hfin].
      split; [| exact Hfin]. apply Forall_cons_2; [exact Hw | exact Hvis].
    + split; [| exact Hstep].
      apply Forall_cons_2; [exact Hw | apply Forall_singleton; exact Hstep].
    + split; [| exact Hstep].
      apply Forall_cons_2; [exact Hw | apply Forall_singleton; exact Hstep].
Qed.
End Invariant.

(** C4. In every state the script goes through, from the start of setup to
    its end and on to the call of [main], the library names of each runner
    are pairwise distinct. *)
Theorem library_names_stay_unique
    (Config : Type) (parse_args : list string -> Reply Config)
    (all_ok : Runner Config -> Node -> bool) (args : list string) (dir : Node) :
  Forall unique_library_names
    (visited (vunit Config parse_args all_ok) setup (initial_world args dir))
  /\ unique_library_names
       (final (run (vunit Config parse_args all_ok) setup (initial_world args dir)))
  /\ Forall unique_library_names
       (visited (vunit Config parse_args all_ok) run_py (initial_world args dir)).
Proof.
  assert (unique_library_names (initial_world (Config := Config) args dir)) as H0
    by apply Forall_nil_2.
  destruct (run_keeps_names_unique Config parse_args all_ok setup _ H0) as [Hv Hf].
  destruct (run_keeps_names_unique Config parse_args all_ok run_py _ H0) as [Hv' _].
  auto.
Qed.

(** * Globbing stays within one directory level *)

Section Globbing.

Lemma select_In (c : string) (entries : list (string * Node)) (e : string * Node) :
  In e (select c entries) -> In e entries.
Proof.
  unfold select. destruct (has_magic c).
  - intros H. apply filter_In in H. tauto.
  - unfold lookup_entry. destruct (find _ entries) as [e' |] eqn:Hfind; simpl.
    + intros [<- | []]. exact (proj1 (find_some _ _ Hfind)).
    + intros [].
Qed.

Lemma well_formed_entry (dir : Node) (e : string * Node) :
  well_formed dir = true -> In e (listdir dir) ->
  contains "/" (fst e) = false /\ well_formed (snd e) = true.
Proof.
  destruct dir as [| entries]; simpl; [intros _ [] |].
  intros Hwf Hin. rewrite forallb_forall in Hwf. specialize (Hwf e Hin).
  apply andb_true_iff in Hwf as [Hname Hchild]. split; [| exact Hchild].
  unfold entry_name_ok in Hname. apply andb_true_iff in Hname as [_ Hname].
  apply negb_true_iff in Hname. exact Hname.
Qed.

(** A match has one name per component of the pattern, and no name holds a
    separator: the names are directory entries. *)
Lemma glob_from_names (comps : list string) :
  forall (dir : Node) (p : list string),
    well_formed dir = true -> In p (glob_from dir comps) ->
    length p = length comps /\ Forall (fun name => contains "/" name = false) p.
Proof.
  induction comps as [| c rest IH]; intros dir p Hwf Hin; simpl in Hin.
  - destruct Hin as [<- | []]. split; [reflexivity | apply Forall_nil_2].
  - apply in_flat_map in Hin as (e & He & Hp).
    apply in_map_iff in Hp as (q & <- & Hq).
    apply select_In in He.
    destruct (well_formed_entry dir e Hwf He) as [Hname Hchild].
    destruct (IH (snd e) q Hchild Hq) as [Hlen Hall].
    split; [simpl; rewrite Hlen; reflexivity |].
    apply Forall_cons_2; assumption.
Qed.

Lemma count_sep_append (a b : string) :
  count_sep (a ++ b) = (count_sep a + count_sep b)%nat.
Proof.
  induction a as [| c a IH]; simpl; [reflexivity |]. rewrite IH. lia.
Qed.

Lemma count_sep_none (name : string) :
  contains "/" name = false -> count_sep name = 0%nat.
Proof.
  induction name as [| c name IH]; cbn [contains count_sep]; [reflexivity |].
  intros H. apply orb_false_iff in H as [Hc Hrest].
  rewrite Ascii.eqb_sym, Hc. exact (IH Hrest).
Qed.

(** Joining n names without separator gives a path with n - 1 separators. *)
Lemma count_sep_concat (p : list string) :
  Forall (fun name => contains "/" name = false) p ->
  count_sep (String.concat "/" p) = Nat.pred (length p).
Proof.
  induction p as [| a p IH]; intros H; [reflexivity |].
  inversion H as [| ? ? Ha Hp]; subst. specialize (IH Hp).
  destruct p as [| b p]; simpl in *.
  - exact (count_sep_none a Ha).
  - rewrite count_sep_append, (count_sep_none a Ha). simpl.
    rewrite IH. reflexivity.
Qed.

Lemma glob_count_sep (dir : Node) (pattern path : string) :
  well_formed dir = true -> path ∈ glob dir pattern ->
  count_sep path = Nat.pred (length (components pattern)).
Proof.
  intros Hwf Hin. unfold glob in Hin.
  apply list_elem_of_In, in_map_iff in Hin as (p & <- & Hp).
  destruct (glob_from_names _ dir p Hwf Hp) as [Hlen Hall].
  rewrite count_sep_concat by exact Hall. rewrite Hlen. reflexivity.
Qed.

Lemma glob_patterns_disjoint (dir : Node) (path : string) :
  well_formed dir = true ->
  path ∈ glob dir "src/*.vhd" -> path ∉ glob dir "src/test/*.vhd".
Proof.
  intros Hwf H1 H2.
  pose proof (glob_count_sep dir _ path Hwf H1) as E1.
  pose proof (glob_count_sep dir _ path Hwf H2) as E2.
  rewrite E1 in E2. vm_compute in E2. discriminate E2.
Qed.
End Globbing.

(** C10. In a well-formed working directory no path matches both src/*.vhd
    and src/test/*.vhd, because a match of the first has one separator and
    a match of the second has two; hence, whatever the run of setup, no file
    is registered both in dcpu16_lib and in dcpu16_test_lib. *)
Theorem design_and_test_files_disjoint
    (Config : Type) (parse_args : list string -> Reply Config)
    (all_ok : Runner Config -> Node -> bool) (args : list string) (dir : Node) :
  well_formed dir = true ->
  (forall path, path ∈ glob dir "src/*.vhd" -> path ∉ glob dir "src/test/*.vhd")
  /\ (forall rn design test path,
        rn ∈ runners (final (run (vunit Config parse_args all_ok) setup
                               (initial_world args dir))) ->
        design ∈ libraries rn -> decl_name design = "dcpu16_lib" ->
        test ∈ libraries rn -> decl_name test = "dcpu16_test_lib" ->
        path ∈ library_files design -> path ∉ library_files test).
Proof.
  intros Hwf. split; [intros path; apply glob_patterns_disjoint; exact Hwf |].
  intros rn design test path Hrn Hd Hdn Ht Htn Hpath.
  destruct (setup_on_reference Config parse_args all_ok args dir) as [_ H].
  destruct (parse_args args) as [cfg | e | z];
    [| destruct H as [_ H]; rewrite H in Hrn; inversion Hrn ..].
  destruct (bool_decide (glob dir "src/*.vhd" = []));
    [| destruct (bool_decide (glob dir "src/test/*.vhd" = []))];
    destruct H as [_ H]; rewrite H in Hrn;
    apply list_elem_of_singleton in Hrn; subst rn; simpl in Hd, Ht;
    repeat (apply elem_of_cons in Hd as [Hd | Hd]; [subst design |]);
    try (inversion Hd; fail); try discriminate Hdn;
    repeat (apply elem_of_cons in Ht as [Ht | Ht]; [subst test |]);
    try (inversion Ht; fail); try discriminate Htn.
  - unfold library_files. simpl. apply not_elem_of_nil.
  - unfold library_files in *. simpl in *. rewrite app_nil_r in *.
    apply glob_patterns_disjoint; assumption.
Qed.

Lemma design_and_test_files_disjoint_witness :
  well_formed sample_cwd = true
  /\ "src/alu.vhd" ∈ glob sample_cwd "src/*.vhd"
  /\ "src/alu.vhd" ∉ glob sample_cwd "src/test/*.vhd".
Proof.
  split; [reflexivity |]. split; [apply list_elem_of_here |].
  destruct (design_and_test_files_disjoint (list string) accept_all tests_pass
              ["run.py"] sample_cwd) as [Hglob _].
  - reflexivity.
  - apply Hglob. apply list_elem_of_here.
Defined.

Section CallsOfTheScript.
Context {St : Type}.
Variable handle : forall c : Call, St -> Reply (ret c) * St.

Lemma expected_order_2008 (vu : VUnit) (lib test_lib : Library) :
  Forall passes_2008 (expected_order vu lib test_lib).
Proof. repeat constructor. Qed.

Lemma run_py_calls_prefix (s : St) :
  exists vu lib test_lib n,
    calls (run handle run_py s) = take n (expected_order vu lib test_lib).
Proof.
  pose (nobody := {| vu_id := 0 |}).
  pose (nothing := {| parent := nobody; library_name := "" |}).
  unfold calls, run_py, add_source_files_std. simpl.
  framework_answers handle as vu s1;
    [| exists nobody, nothing, nothing, 1%nat; reflexivity ..].
  framework_answers handle as u2 s2;
    [| exists vu, nothing, nothing, 2%nat; reflexivity ..].
  framework_answers handle as lib s3;
    [| exists vu, nothing, nothing, 3%nat; reflexivity ..].
  framework_answers handle as u4 s4;
    [| exists vu, lib, nothing, 4%nat; reflexivity ..].
  framework_answers handle as test_lib s5;
    [| exists vu, lib, nothing, 5%nat; reflexivity ..].
  framework_answers handle as u6 s6;
    [| exists vu, lib, test_lib, 6%nat; reflexivity ..].
  framework_answers handle as never s7;
    [destruct never | exists vu, lib, test_lib, 7%nat; reflexivity ..].
Qed.
End CallsOfTheScript.

Lemma run_py_calls_complete {St : Type}
    (handle : forall c : Call, St -> Reply (ret c) * St) (s : St) :
  (exists v, outcome (run handle setup s) = Returned v) ->
  exists vu lib test_lib,
    calls (run handle run_py s) = expected_order vu lib test_lib.
Proof.
  unfold calls, run_py, setup, add_source_files_std. simpl.
  framework_answers handle as vu s1; [| intros [? ?]; discriminate ..].
  framework_answers handle as u2 s2; [| intros [? ?]; discriminate ..].
  framework_answers handle as lib s3; [| intros [? ?]; discriminate ..].
  framework_answers handle as u4 s4; [| intros [? ?]; discriminate ..].
  framework_answers handle as test_lib s5; [| intros [? ?]; discriminate ..].
  framework_answers handle as u6 s6; [| intros [? ?]; discriminate ..].
  intros _. exists vu, lib, test_lib.
  framework_answers handle as never s7; [destruct never | reflexivity ..].
Qed.

(** C9. Every [add_source_files] call the script makes, on any run, passes
    the standard tag 2008; a run whose setup returns makes exactly two such
    calls, both with that tag.  On the reference runner every source
    registration carries the tag, and when setup returns each of the two
    libraries holds exactly one registration, tagged 2008: all the files
    the script registers are compiled as VHDL-2008. *)
Theorem every_registration_is_vhdl_2008 {St : Type}
    (handle : forall c : Call, St -> Reply (ret c) * St) (s : St)
    (Config : Type) (parse_args : list string -> Reply Config)
    (all_ok : Runner Config -> Node -> bool) (args : list string) (dir : Node) :
  Forall passes_2008 (calls (run handle run_py s))
  /\ ((exists v, outcome (run handle setup s) = Returned v) ->
      omap standard_passed (calls (run handle run_py s)) = [Some "2008"; Some "2008"])
  /\ Forall (fun rn =>
       Forall (fun l =>
         Forall (fun ss => set_standard ss = Some "2008") (decl_sources l))
         (libraries rn))
       (runners (final (run (vunit Config parse_args all_ok) setup (initial_world args dir))))
  /\ (forall vu,
        outcome (run (vunit Config parse_args all_ok) setup (initial_world args dir))
        = Returned vu ->
        exists rn,
          runners (final (run (vunit Config parse_args all_ok) setup (initial_world args dir)))
            !! vu_id vu = Some rn
          /\ map (fun l => map set_standard (decl_sources l)) (libraries rn)
             = [[Some "2008"]; [Some "2008"]]).
Proof.
  split; [| split; [| split]].
  - destruct (run_py_calls_prefix handle s) as (vu & lib & test_lib & n & ->).
    apply Forall_take, expected_order_2008.
  - intros Hdone.
    destruct (run_py_calls_complete handle s Hdone) as (vu & lib & test_lib & ->).
    reflexivity.
  - destruct (setup_on_reference Config parse_args all_ok args dir) as [_ H].
    destruct (parse_args args) as [cfg | e | z];
      [| destruct H as [_ ->]; apply Forall_nil_2 ..].
    destruct (bool_decide (glob dir "src/*.vhd" = []));
      [| destruct (bool_decide (glob dir "src/test/*.vhd" = []))];
      destruct H as [_ ->]; repeat constructor.
  - intros vu Hdone.
    destruct (setup_on_reference Config parse_args all_ok args dir) as [_ H].
    destruct (parse_args args) as [cfg | e | z];
      [| destruct H as [H _]; rewrite H in Hdone; discriminate Hdone ..].
    destruct (bool_decide (glob dir "src/*.vhd" = []));
      [destruct H as [H _]; rewrite H in Hdone; discriminate Hdone |].
    destruct (bool_decide (glob dir "src/test/*.vhd" = []));
      [destruct H as [H _]; rewrite H in Hdone; discriminate Hdone |].
    destruct H as [Ho Hr]. rewrite Ho in Hdone. injection Hdone as <-.
    rewrite Hr. eexists. split; reflexivity.
Qed.

Lemma every_registration_is_vhdl_2008_witness :
  let fw := vunit _ accept_all tests_pass in
  let w0 := initial_world ["run.py"] sample_cwd in
  omap standard_passed (calls (run fw run_py w0)) = [Some "2008"; Some "2008"]
  /\ exists rn,
       runners (final (run fw setup w0)) !! 0%nat = Some rn
       /\ map (fun l => map set_standard (decl_sources l)) (libraries rn)
          = [[Some "2008"]; [Some "2008"]].
Proof.
  intros fw w0.
  destruct (every_registration_is_vhdl_2008 fw w0 (list string) accept_all tests_pass
              ["run.py"] sample_cwd) as (_ & Hcalls & _ & Hlibs).
  split.
  - apply Hcalls. exists {| vu_id := 0 |}. reflexivity.
  - apply (Hlibs {| vu_id := 0 |}). reflexivity.
Defined.

(** * Further properties of the script *)



Section GlobbedEntries.

Lemma lookup_entry_Some (name : string) (entries : list (string * Node)) (e : string * Node) :
  lookup_entry name entries = Some e -> fst e = name /\ In e entries.
Proof.
  unfold lookup_entry. intros H. apply find_some in H as [Hin Heq].
  apply String.eqb_eq in Heq. auto.
Qed.

(** A literal component steps into the entry of that name. *)
Lemma glob_from_literal (c : string) (rest : list string) (dir : Node) (p : list string) :
  has_magic c = false ->
  (In p (glob_from dir (c :: rest))
   <-> exists e q, lookup_entry c (listdir dir) = Some e
                   /\ In q (glob_from (snd e) rest) /\ p = c :: q).
Proof.
  intros Hc. cbn [glob_from]. unfold select. rewrite Hc. split.
  - intros H. apply in_flat_map in H as (e & He & Hp).
    destruct (lookup_entry c (listdir dir)) as [e' |] eqn:Hl; [| destruct He].
    destruct He as [<- | []]. apply in_map_iff in Hp as (q & <- & Hq).
    destruct (lookup_entry_Some _ _ _ Hl) as [-> _]. eauto.
  - intros (e & q & Hl & Hq & ->). rewrite Hl. simpl. rewrite app_nil_r.
    destruct (lookup_entry_Some _ _ _ Hl) as [<- _].
    apply in_map. exact Hq.
Qed.

(** A last component with a wildcard selects the matching entries of the
    directory that are not dot files. *)
Lemma glob_from_wildcard (c : string) (dir : Node) (p : list string) :
  has_magic c = true -> ishidden c = false ->
  (In p (glob_from dir [c])
   <-> exists e, In e (listdir dir) /\ ishidden (fst e) = false
                 /\ fnmatch (fst e) c = true /\ p = [fst e]).
Proof.
  intros Hc Hh. cbn [glob_from]. unfold select. rewrite Hc, Hh. simpl orb. split.
  - intros H. apply in_flat_map in H as (e & He & Hp).
    apply filter_In in He as [Hin Hok]. apply andb_true_iff in Hok as [Hvis Hm].
    apply negb_true_iff in Hvis.
    simpl in Hp. destruct Hp as [<- | []]. eauto.
  - intros (e & Hin & Hvis & Hm & ->). apply in_flat_map. exists e. split.
    + apply filter_In. split; [exact Hin |]. rewrite Hvis, Hm. reflexivity.
    + simpl. auto.
Qed.

Lemma glob_design_pattern (dir : Node) (path : string) :
  path ∈ glob dir "src/*.vhd"
  <-> exists src e,
        lookup_entry "src" (listdir dir) = Some src
        /\ In e (listdir (snd src))
        /\ ishidden (fst e) = false
        /\ (exists stem, fst e = stem ++ ".vhd")
        /\ path = "src/" ++ fst e.
Proof.
  unfold glob. rewrite list_elem_of_In, in_map_iff.
  change (components "src/*.vhd") with ["src"; "*.vhd"]. split.
  - intros (p & <- & Hp).
    apply glob_from_literal in Hp as (src & q & Hsrc & Hq & ->); [| reflexivity].
    apply glob_from_wildcard in Hq as (e & He & Hvis & Hm & ->); [| reflexivity ..].
    apply fnmatch_vhd in Hm. exists src, e. repeat split; assumption.
  - intros (src & e & Hsrc & He & Hvis & Hm & ->).
    exists ["src"; fst e]. split; [reflexivity |].
    apply glob_from_literal; [reflexivity |]. exists src, [fst e].
    repeat split; [exact Hsrc |].
    apply glob_from_wildcard; [reflexivity .. |]. exists e.
    repeat split; try assumption. apply fnmatch_vhd. exact Hm.
Qed.

Lemma glob_test_pattern (dir : Node) (path : string) :
  path ∈ glob dir "src/test/*.vhd"
  <-> exists src tst e,
        lookup_entry "src" (listdir dir) = Some src
        /\ lookup_entry "test" (listdir (snd src)) = Some tst
        /\ In e (listdir (snd tst))
        /\ ishidden (fst e) = false
        /\ (exists stem, fst e = stem ++ ".vhd")
        /\ path = "src/test/" ++ fst e.
Proof.
  unfold glob. rewrite list_elem_of_In, in_map_iff.
  change (components "src/test/*.vhd") with ["src"; "test"; "*.vhd"]. split.
  - intros (p & <- & Hp).
    apply glob_from_literal in Hp as (src & q & Hsrc & Hq & ->); [| reflexivity].
    apply glob_from_literal in Hq as (tst & q' & Htst & Hq' & ->); [| reflexivity].
    apply glob_from_wildcard in Hq' as (e & He & Hvis & Hm & ->); [| reflexivity ..].
    apply fnmatch_vhd in Hm. exists src, tst, e. repeat split; assumption.
  - intros (src & tst & e & Hsrc & Htst & He & Hvis & Hm & ->).
    exists ["src"; "test"; fst e]. split; [reflexivity |].
    apply glob_from_literal; [reflexivity |]. exists src, ["test"; fst e].
    repeat split; [exact Hsrc |].
    apply glob_from_literal; [reflexivity |]. exists tst, [fst e].
    repeat split; [exact Htst |].
    apply glob_from_wildcard; [reflexivity .. |]. exists e.
    repeat split; try assumption. apply fnmatch_vhd. exact Hm.
Qed.
End GlobbedEntries.

(** X5. When setup completes, the files of dcpu16_lib are exactly the
    entries of directory src whose name ends in ".vhd" and does not start
    with a dot, each as "src/<name>", and the files of dcpu16_test_lib are
    exactly such entries of src/test, each as "src/test/<name>": files of
    the working directory itself or of deeper directories are not
    registered. *)
Theorem registered_files_are_the_vhdl_entries
    (Config : Type) (parse_args : list string -> Reply Config)
    (all_ok : Runner Config -> Node -> bool)
    (args : list string) (dir : Node) (vu : VUnit) :
  outcome (run (vunit Config parse_args all_ok) setup (initial_world args dir)) = Returned vu ->
  exists rn design test,
    runners (final (run (vunit Config parse_args all_ok) setup (initial_world args dir)))
      !! vu_id vu = Some rn
    /\ libraries rn = [design; test]
    /\ decl_name design = "dcpu16_lib"
    /\ decl_name test = "dcpu16_test_lib"
    /\ (forall path,
          path ∈ library_files design
          <-> exists src e,
                lookup_entry "src" (listdir dir) = Some src
                /\ In e (listdir (snd src))
                /\ ishidden (fst e) = false
                /\ (exists stem, fst e = stem ++ ".vhd")
                /\ path = "src/" ++ fst e)
    /\ (forall path,
          path ∈ library_files test
          <-> exists src tst e,
                lookup_entry "src" (listdir dir) = Some src
                /\ lookup_entry "test" (listdir (snd src)) = Some tst
                /\ In e (listdir (snd tst))
                /\ ishidden (fst e) = false
                /\ (exists stem, fst e = stem ++ ".vhd")
                /\ path = "src/test/" ++ fst e).
Proof.
  intros Hdone.
  destruct (setup_on_reference Config parse_args all_ok args dir) as [_ H].
  destruct (parse_args args) as [cfg | e | z];
    [| destruct H as [H _]; rewrite H in Hdone; discriminate Hdone ..].
  destruct (bool_decide (glob dir "src/*.vhd" = []));
    [destruct H as [H _]; rewrite H in Hdone; discriminate Hdone |].
  destruct (bool_decide (glob dir "src/test/*.vhd" = []));
    [destruct H as [H _]; rewrite H in Hdone; discriminate Hdone |].
  destruct H as [Ho Hr]. rewrite Ho in Hdone. injection Hdone as <-.
  rewrite Hr. do 3 eexists. split; [reflexivity |]. simpl.
  split; [reflexivity |]. split; [reflexivity |]. split; [reflexivity |].
  unfold library_files. simpl. rewrite !app_nil_r.
  split; intros path; [apply glob_design_pattern | apply glob_test_pattern].
Qed.

Lemma registered_files_are_the_vhdl_entries_witness :
  exists rn,
    runners (final (run (vunit _ accept_all tests_pass) setup
                      (initial_world ["run.py"] sample_cwd))) !! 0%nat = Some rn
    /\ map library_files (libraries rn) = [["src/alu.vhd"]; ["src/test/alu_tb.vhd"]].
Proof.
  destruct (registered_files_are_the_vhdl_entries (list string) accept_all tests_pass
              ["run.py"] sample_cwd {| vu_id := 0 |})
    as (rn & design & test & Hrn & Hlibs & _).
  - reflexivity.
  - exists rn. split; [exact Hrn |].
    vm_compute in Hrn. injection Hrn as <-. reflexivity.
Defined.
